(** * DirBuster demo HTTP server (server.py)

    A shallow embedding of the request handler [DemoHandler] and of the
    start-up code [run] / [__main__] of server.py, with the properties the
    specification states about them.

    The program is a thin layer over Python's [http.server], [re],
    [socket], [os.path] and [argparse].  What server.py itself does is
    written out as Rocq functions; what it calls in those libraries is
    either recorded as a call in a trace (the methods invoked on [self])
    or taken as a parameter of a [Section] (the inherited static-file
    handler, the path functions, the operating-system outcomes). *)

From Stdlib Require Import ZArith String Ascii List Bool Lia.
From stdpp Require Import base strings gmap pretty.
Import ListNotations.

Local Open Scope string_scope.
Local Open Scope Z_scope.

(** ** Regular expressions: the fragment of [re] that server.py uses

    The only pattern in the program is [r"/private/?"]: literal characters,
    concatenation and the greedy optional [?].  [match_here] is a
    backtracking matcher in continuation-passing style, the strategy of
    Python's engine: [Opt p] first tries to consume [p] and falls back to
    consuming nothing. *)

Module re.

Inductive pattern : Type :=
| Eps                       (* the empty pattern *)
| Lit (c : ascii)           (* one literal character *)
| Cat (p q : pattern)       (* p followed by q *)
| Opt (p : pattern).        (* p?  (greedy) *)

Fixpoint match_here (p : pattern) (s : string) (k : string -> bool) : bool :=
  match p with
  | Eps => k s
  | Lit c =>
      match s with
      | String a rest => if Ascii.eqb a c then k rest else false
      | EmptyString => false
      end
  | Cat p1 p2 => match_here p1 s (fun rest => match_here p2 rest k)
  | Opt p1 => match_here p1 s k || k s
  end.

Definition at_end (s : string) : bool :=
  match s with EmptyString => true | String _ _ => false end.

(** [re.fullmatch(p, s)]: the whole of [s] must be consumed.  Python
    returns a match object or [None]; the program only tests it for
    truth, and a match object is always true. *)
Definition fullmatch (p : pattern) (s : string) : bool :=
  match_here p s at_end.

(** The pattern of a string of literal characters. *)
Fixpoint literal (w : string) : pattern :=
  match w with
  | EmptyString => Eps
  | String c w' => Cat (Lit c) (literal w')
  end.

(** [strip_prefix w s] is [Some rest] when [s = w ++ rest]. *)
Fixpoint strip_prefix (w s : string) : option string :=
  match w with
  | EmptyString => Some s
  | String c w' =>
      match s with
      | String a s' => if Ascii.eqb a c then strip_prefix w' s' else None
      | EmptyString => None
      end
  end.

End re.

(** The compiled form of [r"/private/?"]. *)
Definition private_re : re.pattern :=
  re.Cat (re.literal "/private") (re.Opt (re.Lit "/"%char)).

(** ** Calls of a request handler

    A handler method acts on [self] through the methods of
    [BaseHTTPRequestHandler] and through [self.wfile].  None of these calls
    returns a value the program looks at, so a method is modelled by the
    list of calls it makes, in order.  [super_do_GET] stands for
    [super().do_GET()]; [send_error] and [open_rb] occur only in what the
    library does on its own ([send_error] answers with an error page,
    [open_rb f] is [open(f, 'rb')] on the file a static request resolves
    to). *)

Inductive call : Type :=
| send_response (code : Z)
| send_header (keyword value : string)
| end_headers
| wfile_write (data : string)
| super_do_GET
| send_error (code : Z)
| open_rb (file : string).

(** What a client sees of a list of calls. *)

Fixpoint status_of (t : list call) : option Z :=
  match t with
  | [] => None
  | send_response code :: _ => Some code
  | send_error code :: _ => Some code
  | _ :: t' => status_of t'
  end.

Fixpoint headers_of (t : list call) : list (string * string) :=
  match t with
  | [] => []
  | send_header k v :: t' => (k, v) :: headers_of t'
  | _ :: t' => headers_of t'
  end.

Fixpoint body_of (t : list call) : string :=
  match t with
  | [] => ""
  | wfile_write data :: t' => data +:+ body_of t'
  | _ :: t' => body_of t'
  end.

Fixpoint opened (t : list call) : list string :=
  match t with
  | [] => []
  | open_rb f :: t' => f :: opened t'
  | _ :: t' => opened t'
  end.

(** The calls that start a response: a status line written by the method
    itself, an error page, or the inherited [do_GET] (which answers the
    request in the method's place). *)
Definition starts_response (c : call) : bool :=
  match c with
  | send_response _ | send_error _ | super_do_GET => true
  | _ => false
  end.

Definition responses (t : list call) : nat :=
  List.length (List.filter starts_response t).

(** The status lines an answer carries on the wire: [send_response] and
    [send_error] each write one; [super_do_GET] writes none by itself. *)
Definition status_lines (t : list call) : nat :=
  List.length
    (List.filter (fun c => match c with
                           | send_response _ | send_error _ => true
                           | _ => false
                           end) t).

Definition delegates (t : list call) : bool :=
  existsb (fun c => match c with super_do_GET => true | _ => false end) t.

(** ** Requests and handler instances *)

(** A parsed request line, as [BaseHTTPRequestHandler.parse_request]
    leaves it in [self.command] and [self.path]; [self.path] is the raw
    request target (query string included).  The request line is decoded
    as ISO-8859-1, so a character of [path] is one byte. *)
Record request : Type := {
  req_command : string;
  req_path : string;
  req_client : string * Z
}.

Record handler : Type := {
  command : string;
  path : string;
  directory : string;
  client_address : string * Z
}.

(** The files below the served root: absolute path to node. *)
Inductive node : Type :=
| File (data : string)
| Directory.

Abbreviation filesystem := (gmap string node).

(** A request method of a handler class: given the files, what it does on
    [self]. *)
Definition method : Type := filesystem -> handler -> list call.

Record handler_class : Type := {
  cls_init : request -> handler;
  cls_methods : gmap string method
}.

Record server : Type := {
  server_address : string * Z;
  RequestHandlerClass : handler_class
}.

(** ** DemoHandler.do_GET, lines 34-51 *)

Definition DemoHandler_do_GET (self : handler) : list call :=
  if re.fullmatch private_re (path self) then
    [ send_response 403;
      send_header "Content-Type" "text/plain; charset=utf-8";
      end_headers;
      wfile_write "403 Forbidden: Directory listing is disabled." ]
  else if String.eqb (path self) "/health" then
    [ send_response 200;
      send_header "Content-Type" "text/plain; charset=utf-8";
      end_headers;
      wfile_write "ok" ]
  else
    [ super_do_GET ].

(** [super().do_GET()] resolved against what the base class does on the
    same [self]. *)
Definition call_super (base : list call) (t : list call) : list call :=
  flat_map (fun c => match c with super_do_GET => base | _ => [c] end) t.

(** ** Paths that climb out of the root

    [segments] is [str.split('/')]; [climbs] walks the segments with the
    current depth below the root and reports a [..] taken at depth 0. *)

Fixpoint segments (s : string) : list string :=
  match s with
  | EmptyString => [""]
  | String c s' =>
      if Ascii.eqb c "/"%char then "" :: segments s'
      else match segments s' with
           | seg :: rest => String c seg :: rest
           | [] => [String c ""]
           end
  end.

Fixpoint climbs (segs : list string) (depth : nat) : bool :=
  match segs with
  | [] => false
  | seg :: rest =>
      if String.eqb seg ".." then
        match depth with
        | O => true
        | S d => climbs rest d
        end
      else if String.eqb seg "" || String.eqb seg "." then climbs rest depth
      else climbs rest (S depth)
  end.

Definition escapes_root (p : string) : bool := climbs (segments p) 0.

(** [is_under root f]: [f] is [root/rel] for a relative part [rel] that
    never climbs above [root]. *)
Definition is_under (root f : string) : bool :=
  match re.strip_prefix (root +:+ "/") f with
  | Some rel => negb (escapes_root rel)
  | None => false
  end.

(** A rejection: an answer with status 404 or 403 that opens no file. *)
Definition rejected (t : list call) : Prop :=
  (status_of t = Some 404 \/ status_of t = Some 403) /\ opened t = [].

(** ** The route rules as the specification words them

    Section 3 of the specification: a route rule is a pair of a path
    matcher and a response producer; the rules are tried in a fixed order
    and the first match wins.  These definitions follow the specification
    and are compared with [DemoHandler_do_GET] below. *)

Record route_rule : Type := {
  matcher : string -> bool;
  producer : list call
}.

Fixpoint spec_dispatch (rules : list route_rule) (p : string) : list (list call) :=
  match rules with
  | [] => []
  | r :: rest => if matcher r p then [producer r] else spec_dispatch rest p
  end.

Definition spec_route_rules : list route_rule :=
  [ {| matcher := fun p => String.eqb p "/private" || String.eqb p "/private/";
       producer := [ send_response 403;
                     send_header "Content-Type" "text/plain; charset=utf-8";
                     end_headers;
                     wfile_write "403 Forbidden: Directory listing is disabled." ] |};
    {| matcher := fun p => String.eqb p "/health";
       producer := [ send_response 200;
                     send_header "Content-Type" "text/plain; charset=utf-8";
                     end_headers;
                     wfile_write "ok" ] |};
    {| matcher := fun _ => true;
       producer := [ super_do_GET ] |} ].

(** ** Start-up: exceptions, outcomes of the operating system, effects *)

(** The exceptions the start-up code can meet, with their place in
    Python's hierarchy: [OSError] and [OverflowError] derive from
    [Exception]; [KeyboardInterrupt] and [SystemExit] derive from
    [BaseException] only. *)
Inductive exn : Type :=
| OSError (errno : Z)
| OverflowError
| KeyboardInterrupt
| SystemExit (code : Z).

Definition isinstance_Exception (e : exn) : bool :=
  match e with
  | OSError _ | OverflowError => true
  | KeyboardInterrupt | SystemExit _ => false
  end.

Inductive result (A : Type) : Type :=
| Return (a : A)
| Raise (e : exn).

Arguments Return {A} a.
Arguments Raise {A} e.

(** What the operating system answers during one run of the process:
    [None] for a call that succeeds, [Some e] for one that raises [e]. *)
Record os_env : Type := {
  bind_outcome : string -> Z -> option exn;   (* ThreadingHTTPServer((host, port), ...) *)
  socket_outcome : option exn;                (* socket.socket(AF_INET, SOCK_DGRAM) *)
  connect_outcome : option exn;               (* s.connect(("8.8.8.8", 80)) *)
  getsockname_outcome : result string;        (* s.getsockname()[0] *)
  close_outcome : option exn;                 (* s.close() *)
  incoming : list request;                    (* the requests served before the loop ends *)
  serve_outcome : option exn                  (* how httpd.serve_forever() ends *)
}.

(** What the start-up code itself does, in order: its own [print] calls,
    the probe socket, the answers of the serve loop, [server_close].  The
    line that [DemoHandler.log_message] prints for a request while it is
    being served is written by the handler, not by [run], and is not among
    these effects. *)
Inductive effect : Type :=
| print (line : string)
| socket_open
| socket_close
| respond (t : list call)
| server_close.

(** get_lan_ip, lines 58-66.  The socket is created outside the [try];
    [finally] closes it on both paths, and an exception of [close] replaces
    the pending one. *)
Definition get_lan_ip (env : os_env) : list effect * result string :=
  match socket_outcome env with
  | Some e => ([], Raise e)
  | None =>
      let body :=
        match connect_outcome env with
        | Some e => Raise e
        | None => getsockname_outcome env
        end in
      match close_outcome env with
      | Some e => ([socket_open; socket_close], Raise e)
      | None => ([socket_open; socket_close], body)
      end
  end.

(** The command line after [argparse]: each flag is absent or carries its
    converted value ([--port] has [type=int]; a value that does not convert
    ends the process inside [parse_args], before [run]). *)
Record cli : Type := {
  cli_host : option string;
  cli_port : option Z
}.

Definition parse_args (c : cli) : string * Z :=
  (default "0.0.0.0" (cli_host c), default 8000 (cli_port c)).

(** ** A reference static-file handler

    Modelled from the spec: the static file resolution of the HTTP library
    ([SimpleHTTPRequestHandler.do_GET]), which is not part of this
    repository.  Section 4.1, rule 3: resolve the path relative to the
    root, serve the file bytes if found, give the standard not-found answer
    if absent, reject a path that leaves the root.  It instantiates the
    library parameters of the program where a concrete one is needed. *)

Definition spec_resolve (root p : string) : option string :=
  match p with
  | String c rel =>
      if Ascii.eqb c "/"%char then
        if escapes_root rel then None else Some (root +:+ p)
      else None
  | EmptyString => None
  end.

Definition spec_static : method := fun fs self =>
  match spec_resolve (directory self) (path self) with
  | None => [ send_error 404 ]
  | Some f =>
      match fs !! f with
      | Some (File data) =>
          [ open_rb f;
            send_response 200;
            send_header "Content-type" "application/octet-stream";
            end_headers;
            wfile_write data ]
      | _ => [ send_error 404 ]
      end
  end.

(** Modelled from the spec: [do_HEAD] of the same library, the headers of
    [spec_static] without the body. *)
Definition spec_static_head : method := fun fs self =>
  List.filter (fun c => match c with wfile_write _ => false | _ => true end)
              (spec_static fs self).

(** [os.path.dirname] and [os.path.join] of a POSIX system, for concrete
    runs.  [dirname(p)] is [p] up to and including its last slash, with the
    trailing slashes removed unless that leaves nothing; [join(a, b)] is
    [b] when [b] is absolute, [a + b] when [a] is empty or ends with a
    slash, and [a + "/" + b] otherwise. *)
Fixpoint head_to_last_slash (s : string) : string :=
  match s with
  | EmptyString => ""
  | String c s' =>
      match head_to_last_slash s' with
      | EmptyString => if Ascii.eqb c "/"%char then "/" else ""
      | h => String c h
      end
  end.

Fixpoint rstrip_slashes (s : string) : string :=
  match s with
  | EmptyString => ""
  | String c s' =>
      match rstrip_slashes s' with
      | EmptyString => if Ascii.eqb c "/"%char then "" else String c ""
      | t => String c t
      end
  end.

Definition posix_dirname (p : string) : string :=
  match rstrip_slashes (head_to_last_slash p) with
  | EmptyString => head_to_last_slash p
  | t => t
  end.

Fixpoint ends_with_slash (s : string) : bool :=
  match s with
  | EmptyString => false
  | String c EmptyString => Ascii.eqb c "/"%char
  | String _ s' => ends_with_slash s'
  end.

Definition posix_join (a b : string) : string :=
  match b with
  | String "/" _ => b
  | _ =>
      match a with
      | EmptyString => b
      | _ => if ends_with_slash a then a +:+ b else a +:+ "/" +:+ b
      end
  end.

(** ** Handlers running side by side

    For each accepted request, the calls its handler has made and the
    calls it has still to make; the files all handlers read; and what a
    scheduler can do next: accept a request or let one handler make its
    next call. *)

Record connection : Type := {
  conn_request : request;
  conn_sent : list call;
  conn_pending : list call
}.

Record pool : Type := {
  pool_files : filesystem;
  pool_conns : list connection
}.

Inductive action : Type :=
| accept (r : request)
| advance (i : nat).

(** ** A concrete installation, for runs on concrete input *)

Definition example_file : string := "/srv/demo/server.py".

Definition example_fs : filesystem :=
  <["/srv/demo/site/index.html" := File "<h1>demo</h1>"]>
    (<["/srv/demo/site/private/secrets.txt" := File "s3cr3t"]>
       (<["/etc/passwd" := File "root:x:0:0"]> ∅)).

Definition example_other : gmap string method :=
  <["do_HEAD" := spec_static_head]> ∅.

Definition example_request (cmd p : string) : request :=
  {| req_command := cmd; req_path := p; req_client := ("192.168.1.7", 51234) |}.

(** A host without a route to 8.8.8.8: [connect] fails with ENETUNREACH. *)
Definition example_env_no_network : os_env :=
  {| bind_outcome := fun _ _ => None;
     socket_outcome := None;
     connect_outcome := Some (OSError 101);
     getsockname_outcome := Return "0.0.0.0";
     close_outcome := None;
     incoming := [ example_request "GET" "/health" ];
     serve_outcome := Some KeyboardInterrupt |}.

(** ** DemoHandler.log_message, lines 53-55 *)

Fixpoint has_char (c : ascii) (s : string) : bool :=
  match s with
  | EmptyString => false
  | String a rest => Ascii.eqb a c || has_char c rest
  end.

(** [pyval] is the type of the values passed as [*args] and [str_mod] is
    [format % args] of Python's [str]: the formatted text, or [None] when
    the operator raises.  [now] is what [self.log_date_time_string()]
    returns.  The three parts of the tuple are strings, so the outer [%]
    joins them around the fixed text of its format; when [format % args]
    raises, nothing is printed. *)
Definition DemoHandler_log_message {pyval : Type}
    (str_mod : string -> list pyval -> option string)
    (self : handler) (now : string)
    (format : string) (args : list pyval) : option effect :=
  match str_mod format args with
  | Some message =>
      Some (print (fst (client_address self) +:+ " - - [" +:+ now +:+ "] " +:+ message))
  | None => None
  end.

(** Three requests, two of them for the same file from different clients,
    with the calls of their handlers interleaved. *)
Definition example_schedule : list action :=
  [ accept (example_request "GET" "/index.html");
    accept (example_request "GET" "/health");
    accept {| req_command := "GET"; req_path := "/index.html";
              req_client := ("10.0.0.9", 40000) |};
    advance 2%nat; advance 0%nat; advance 1%nat; advance 2%nat; advance 0%nat;
    advance 1%nat; advance 0%nat; advance 2%nat; advance 1%nat; advance 2%nat;
    advance 0%nat; advance 1%nat; advance 2%nat; advance 0%nat ].

(** The operator presses Ctrl+C while [connect] is under way: the call
    raises KeyboardInterrupt. *)
Definition example_env_interrupted : os_env :=
  {| bind_outcome := fun _ _ => None;
     socket_outcome := None;
     connect_outcome := Some KeyboardInterrupt;
     getsockname_outcome := Return "192.168.1.20";
     close_outcome := None;
     incoming := [ example_request "GET" "/health" ];
     serve_outcome := Some KeyboardInterrupt |}.

(** A [%] operator for concrete runs: a format without conversions and
    without arguments is its own result; anything else is left to raise. *)
Definition example_str_mod (format : string) (args : list string) : option string :=
  match args with
  | [] => Some format
  | _ :: _ => None
  end.

(** ** The program *)

Section Program.

(** [__file__] of server.py and the two [os.path] functions of line 25. *)
Variable __file__ : string.
Variable os_path_dirname : string -> string.
Variable os_path_join : string -> string -> string.

(** [SimpleHTTPRequestHandler.do_GET], the static file resolution under
    [self.directory], and the other request methods the base class defines
    ([do_HEAD]), by method name. *)
Variable SimpleHTTPRequestHandler_do_GET : method.
Variable SimpleHTTPRequestHandler_other : gmap string method.

(** Modelled from the spec: what the specification says of the library's
    static file resolution (section 4.1, rule 3, and the glossary), as far
    as the properties below rely on it.  [resolve root p] is the file below
    [root] that the library maps the request path [p] to, or [None] when it
    refuses the path.  A resolved path that names a file is answered with
    status 200 and the file's bytes; one that names nothing is answered
    with 404; the only file the handler opens is the resolved one; a
    resolved path lies under the root; a path that climbs out of the root
    is refused, and a refused path is answered with 404 or 403. *)
Variable resolve : string -> string -> option string.

Hypothesis static_found : forall (fs : filesystem) (self : handler) (f data : string),
  resolve (directory self) (path self) = Some f ->
  fs !! f = Some (File data) ->
  status_of (SimpleHTTPRequestHandler_do_GET fs self) = Some 200 /\
  body_of (SimpleHTTPRequestHandler_do_GET fs self) = data.

Hypothesis static_absent : forall (fs : filesystem) (self : handler) (f : string),
  resolve (directory self) (path self) = Some f ->
  fs !! f = None ->
  status_of (SimpleHTTPRequestHandler_do_GET fs self) = Some 404.

Hypothesis static_opens_resolved : forall (fs : filesystem) (self : handler) (f : string),
  In f (opened (SimpleHTTPRequestHandler_do_GET fs self)) ->
  resolve (directory self) (path self) = Some f.

Hypothesis static_refused : forall (fs : filesystem) (self : handler),
  resolve (directory self) (path self) = None ->
  status_of (SimpleHTTPRequestHandler_do_GET fs self) = Some 404 \/
  status_of (SimpleHTTPRequestHandler_do_GET fs self) = Some 403.

Hypothesis resolve_under_root : forall (root p f : string),
  resolve root p = Some f -> is_under root f = true.

Hypothesis resolve_refuses_traversal : forall (root p : string),
  escapes_root p = true -> resolve root p = None.

(** Line 25. *)
Definition BASE_DIR : string :=
  os_path_join (os_path_dirname __file__) "site".

(** [SimpleHTTPRequestHandler.__init__(request, client_address, server,
    directory=...)]: the instance that handles one parsed request. *)
Definition SimpleHTTPRequestHandler_init (r : request) (dir : string) : handler :=
  {| command := req_command r;
     path := req_path r;
     directory := dir;
     client_address := req_client r |}.

Definition SimpleHTTPRequestHandler_methods : gmap string method :=
  <["do_GET" := SimpleHTTPRequestHandler_do_GET]> SimpleHTTPRequestHandler_other.

Definition SimpleHTTPRequestHandler (dir : string) : handler_class :=
  {| cls_init := fun r => SimpleHTTPRequestHandler_init r dir;
     cls_methods := SimpleHTTPRequestHandler_methods |}.

(** DemoHandler.__init__, lines 31-32. *)
Definition DemoHandler_init (r : request) : handler :=
  SimpleHTTPRequestHandler_init r BASE_DIR.

(** [DemoHandler.do_GET] as a method of the class: its own calls, with
    [super().do_GET()] running the base method on the same [self]. *)
Definition DemoHandler_GET : method := fun fs self =>
  call_super (SimpleHTTPRequestHandler_do_GET fs self) (DemoHandler_do_GET self).

(** class DemoHandler(SimpleHTTPRequestHandler), lines 28-51: the methods
    of the base class, with [__init__] and [do_GET] overridden.  The third
    override, [log_message] (lines 53-55), formats the line written to
    standard output for a request and takes no part in the answer; it is
    left out. *)
Definition DemoHandler : handler_class :=
  {| cls_init := DemoHandler_init;
     cls_methods := <["do_GET" := DemoHandler_GET]> SimpleHTTPRequestHandler_methods |}.

(** The dispatch of [BaseHTTPRequestHandler.handle_one_request]: the method
    named [do_] + command is looked up on the class and called; a class
    without it answers 501. *)
Definition handle_one_request (cls : handler_class) (fs : filesystem)
    (r : request) : list call :=
  let self := cls_init cls r in
  match cls_methods cls !! ("do_" +:+ command self) with
  | Some m => m fs self
  | None => [ send_error 501 ]
  end.

Definition ThreadingHTTPServer (address : string * Z) (cls : handler_class) : server :=
  {| server_address := address; RequestHandlerClass := cls |}.

(** One request: a new handler instance is made and run.  Neither the
    server object nor the files are written by it. *)
Definition finish_request (srv : server) (fs : filesystem) (r : request)
    : list call * (server * filesystem) :=
  (handle_one_request (RequestHandlerClass srv) fs r, (srv, fs)).

(** The requests of [serve_forever], one after the other, each from the
    state the one before left: the answers in the order in which the
    requests were accepted.  The server of line 70 runs each handler in a
    thread of its own; [pool_run] below lets the handlers interleave. *)
Fixpoint serve (srv : server) (fs : filesystem) (rs : list request)
    : list (list call) * (server * filesystem) :=
  match rs with
  | [] => ([], (srv, fs))
  | r :: rs' =>
      let '(t, (srv1, fs1)) := finish_request srv fs r in
      let '(ts, st) := serve srv1 fs1 rs' in
      (t :: ts, st)
  end.

(** run, lines 69-87: what [run] does itself and the exception it ends
    with, if any.  The [print] effects are the [print] calls of lines
    76-79 and 87; the answers stand in the order of acceptance. *)
Definition run (env : os_env) (fs : filesystem) (host : string) (port : Z)
    : list effect * option exn :=
  match bind_outcome env host port with
  | Some e => ([], Some e)
  | None =>
      let httpd := ThreadingHTTPServer (host, port) DemoHandler in
      let '(eff, detected) := get_lan_ip env in
      let lan :=
        match detected with
        | Return ip => Return ip
        | Raise e => if isinstance_Exception e then Return host else Raise e
        end in
      match lan with
      | Raise e => (eff, Some e)
      | Return lan_ip =>
          let banner :=
            [ print "DirBuster Demo Server running on:";
              print ("  http://127.0.0.1:" +:+ pretty port);
              print ("  http://" +:+ lan_ip +:+ ":" +:+ pretty port +:+ "  (LAN)");
              print "Press Ctrl+C to stop." ] in
          let served := List.map respond (fst (serve httpd fs (incoming env))) in
          ((eff ++ banner ++ served ++ [ server_close; print "Server stopped." ])%list,
           match serve_outcome env with
           | Some KeyboardInterrupt => None
           | other => other
           end)
      end
  end.

(** The [__main__] block, lines 90-95. *)
Definition main (c : cli) (env : os_env) (fs : filesystem)
    : list effect * option exn :=
  let '(host, port) := parse_args c in
  run env fs host port.

(** ** The threaded server

    ThreadingHTTPServer (line 70) hands every accepted request to a thread
    of its own, which makes a handler instance and runs it.  A [pool] holds
    the files and, for each accepted request, the calls its handler has
    made and the calls it has still to make.  A schedule is any sequence
    of acceptances and of single calls, each made by whichever handler the
    scheduler picks; [advance i] on a handler that has finished, or that
    does not exist, does nothing.  Nothing in server.py writes the files,
    so no action changes them. *)

Definition pool_act (cls : handler_class) (a : action) (p : pool) : pool :=
  match a with
  | accept r =>
      {| pool_files := pool_files p;
         pool_conns :=
           (pool_conns p ++
            [ {| conn_request := r;
                 conn_sent := [];
                 conn_pending := handle_one_request cls (pool_files p) r |} ])%list |}
  | advance i =>
      match pool_conns p !! i with
      | Some c =>
          match conn_pending c with
          | x :: rest =>
              {| pool_files := pool_files p;
                 pool_conns :=
                   <[i := {| conn_request := conn_request c;
                             conn_sent := (conn_sent c ++ [x])%list;
                             conn_pending := rest |}]> (pool_conns p) |}
          | [] => p
          end
      | None => p
      end
  end.

Fixpoint pool_run (cls : handler_class) (sched : list action) (p : pool) : pool :=
  match sched with
  | [] => p
  | a :: rest => pool_run cls rest (pool_act cls a p)
  end.

(** What every schedule keeps true of a handler in the pool: the calls made
    and the calls to come are the answer to its request. *)
Definition conn_ok (cls : handler_class) (fs : filesystem) (c : connection) : Prop :=
  (conn_sent c ++ conn_pending c)%list = handle_one_request cls fs (conn_request c).

(** * Properties *)

(** ** The matcher *)

Lemma re_match_here_literal (w s : string) (k : string -> bool) :
  re.match_here (re.literal w) s k =
  match re.strip_prefix w s with Some rest => k rest | None => false end.
Proof.
  revert s; induction w as [|c w IH]; intros s; simpl; [reflexivity|].
  destruct s as [|a s]; [reflexivity|].
  destruct (Ascii.eqb a c); [apply IH | reflexivity].
Qed.

Lemma re_strip_prefix_Some (w s rest : string) :
  re.strip_prefix w s = Some rest <-> s = w +:+ rest.
Proof.
  revert s; induction w as [|c w IH]; intros s; cbn [re.strip_prefix].
  - split; [intros [= ->]; reflexivity | intros ->; reflexivity].
  - destruct s as [|a s]; [split; discriminate|].
    destruct (Ascii.eqb_spec a c) as [->|Hne].
    + rewrite IH. split; [intros ->; reflexivity | intros [= ->]; reflexivity].
    + split; [discriminate | intros [= Ha _]; contradiction].
Qed.

Lemma re_at_end_true (s : string) : re.at_end s = true <-> s = "".
Proof. destruct s; simpl; split; congruence. Qed.

(** [r"/private/?"] matches the two strings "/private" and "/private/"
    in full, and no other. *)
Lemma private_re_spec (s : string) :
  re.fullmatch private_re s = true <-> s = "/private" \/ s = "/private/".
Proof.
  unfold re.fullmatch, private_re.
  cbn [re.match_here]. rewrite re_match_here_literal.
  destruct (re.strip_prefix "/private" s) as [rest|] eqn:E.
  - apply re_strip_prefix_Some in E. subst s.
    destruct rest as [|a rest].
    + split; [left; reflexivity | reflexivity].
    + cbn [re.match_here re.at_end]. rewrite orb_false_r.
      destruct (Ascii.eqb_spec a "/"%char) as [->|Hne].
      * rewrite re_at_end_true. split.
        -- intros ->. right. reflexivity.
        -- intros [H|H]; cbv [String.append] in H; [discriminate|]. congruence.
      * split; [discriminate|].
        intros [H|H]; cbv [String.append] in H; [discriminate|].
        injection H as H1 H2. congruence.
  - split; [discriminate|].
    intros [->| ->]; vm_compute in E; discriminate.
Qed.

Lemma private_re_false (s : string) :
  s <> "/private" -> s <> "/private/" -> re.fullmatch private_re s = false.
Proof.
  intros H1 H2. destruct (re.fullmatch private_re s) eqn:E; [|reflexivity].
  apply private_re_spec in E. tauto.
Qed.

Example private_re_examples :
  re.fullmatch private_re "/private" = true
  /\ re.fullmatch private_re "/private/" = true
  /\ re.fullmatch private_re "/private//" = false
  /\ re.fullmatch private_re "/private/secrets.txt" = false
  /\ re.fullmatch private_re "/privat" = false
  /\ re.fullmatch private_re "/Private" = false
  /\ re.fullmatch private_re "" = false.
Proof. repeat split. Qed.

(** ** The three branches of do_GET *)

Lemma do_GET_private (self : handler) :
  path self = "/private" \/ path self = "/private/" ->
  DemoHandler_do_GET self =
  [ send_response 403;
    send_header "Content-Type" "text/plain; charset=utf-8";
    end_headers;
    wfile_write "403 Forbidden: Directory listing is disabled." ].
Proof.
  intros H. apply private_re_spec in H.
  unfold DemoHandler_do_GET. rewrite H. reflexivity.
Qed.

Lemma do_GET_health (self : handler) :
  path self = "/health" ->
  DemoHandler_do_GET self =
  [ send_response 200;
    send_header "Content-Type" "text/plain; charset=utf-8";
    end_headers;
    wfile_write "ok" ].
Proof.
  intros H. unfold DemoHandler_do_GET. rewrite H. reflexivity.
Qed.

Lemma do_GET_fallthrough (self : handler) :
  path self <> "/private" -> path self <> "/private/" -> path self <> "/health" ->
  DemoHandler_do_GET self = [ super_do_GET ].
Proof.
  intros H1 H2 H3. unfold DemoHandler_do_GET.
  rewrite (private_re_false _ H1 H2).
  apply String.eqb_neq in H3. rewrite H3. reflexivity.
Qed.

Lemma GET_private (fs : filesystem) (self : handler) :
  path self = "/private" \/ path self = "/private/" ->
  DemoHandler_GET fs self =
  [ send_response 403;
    send_header "Content-Type" "text/plain; charset=utf-8";
    end_headers;
    wfile_write "403 Forbidden: Directory listing is disabled." ].
Proof.
  intros Hp. unfold DemoHandler_GET. rewrite (do_GET_private self Hp). reflexivity.
Qed.

Lemma GET_health (fs : filesystem) (self : handler) :
  path self = "/health" ->
  DemoHandler_GET fs self =
  [ send_response 200;
    send_header "Content-Type" "text/plain; charset=utf-8";
    end_headers;
    wfile_write "ok" ].
Proof.
  intros Hp. unfold DemoHandler_GET. rewrite (do_GET_health self Hp). reflexivity.
Qed.

Lemma GET_fallthrough (fs : filesystem) (self : handler) :
  path self <> "/private" -> path self <> "/private/" -> path self <> "/health" ->
  DemoHandler_GET fs self = SimpleHTTPRequestHandler_do_GET fs self.
Proof.
  intros H1 H2 H3. unfold DemoHandler_GET.
  rewrite do_GET_fallthrough by assumption.
  cbn [call_super flat_map]. apply app_nil_r.
Qed.

(** A GET request reaches [DemoHandler.do_GET], on an instance made by
    [DemoHandler.__init__]. *)
Lemma handle_GET (fs : filesystem) (r : request) :
  req_command r = "GET" ->
  handle_one_request DemoHandler fs r = DemoHandler_GET fs (DemoHandler_init r).
Proof.
  intros H. unfold handle_one_request. cbn [cls_init cls_methods DemoHandler].
  cbn [command DemoHandler_init SimpleHTTPRequestHandler_init]. rewrite H.
  change ("do_" +:+ "GET") with "do_GET".
  rewrite lookup_insert_eq. reflexivity.
Qed.

(** C1.  On a request whose path is exactly "/private" or "/private/",
    do_GET answers by itself: status 403, the header Content-Type:
    text/plain; charset=utf-8, the body "403 Forbidden: Directory listing
    is disabled.", and no call of the inherited static file handler,
    whatever that handler and the files are.  This is the answer to a GET
    request for such a path. *)
Theorem private_listing_forbidden (fs : filesystem) (r : request) :
  req_path r = "/private" \/ req_path r = "/private/" ->
  let t := DemoHandler_GET fs (DemoHandler_init r) in
  t = [ send_response 403;
        send_header "Content-Type" "text/plain; charset=utf-8";
        end_headers;
        wfile_write "403 Forbidden: Directory listing is disabled." ]
  /\ status_of t = Some 403
  /\ headers_of t = [ ("Content-Type", "text/plain; charset=utf-8") ]
  /\ body_of t = "403 Forbidden: Directory listing is disabled."
  /\ delegates (DemoHandler_do_GET (DemoHandler_init r)) = false
  /\ (req_command r = "GET" -> handle_one_request DemoHandler fs r = t).
Proof.
  intros Hp. cbv zeta.
  rewrite (GET_private fs (DemoHandler_init r)) by exact Hp.
  rewrite (do_GET_private (DemoHandler_init r)) by exact Hp.
  repeat split.
  intros Hc. rewrite (handle_GET fs r Hc). apply GET_private. exact Hp.
Qed.

(** C4.  On a request whose path is exactly "/health", do_GET answers by
    itself: status 200, Content-Type: text/plain; charset=utf-8, body
    "ok", and no call of the inherited static file handler.  This is the
    answer to a GET request for that path. *)
Theorem health_ok (fs : filesystem) (r : request) :
  req_path r = "/health" ->
  let t := DemoHandler_GET fs (DemoHandler_init r) in
  t = [ send_response 200;
        send_header "Content-Type" "text/plain; charset=utf-8";
        end_headers;
        wfile_write "ok" ]
  /\ status_of t = Some 200
  /\ headers_of t = [ ("Content-Type", "text/plain; charset=utf-8") ]
  /\ body_of t = "ok"
  /\ delegates (DemoHandler_do_GET (DemoHandler_init r)) = false
  /\ (req_command r = "GET" -> handle_one_request DemoHandler fs r = t).
Proof.
  intros Hp. cbv zeta.
  rewrite (GET_health fs (DemoHandler_init r)) by exact Hp.
  rewrite (do_GET_health (DemoHandler_init r)) by exact Hp.
  repeat split.
  intros Hc. rewrite (handle_GET fs r Hc). apply GET_health. exact Hp.
Qed.

(** ** Paths that miss the two fixed rules *)

Ltac differ :=
  let H := fresh in
  intros H; cbv [String.append] in H; discriminate H.

Lemma subpath_not_fixed (s : string) :
  s <> "" ->
  "/private/" +:+ s <> "/private" /\
  "/private/" +:+ s <> "/private/" /\
  "/private/" +:+ s <> "/health".
Proof.
  intros Hs. repeat split; try differ.
  intros H. cbv [String.append] in H. apply Hs.
  destruct s; [reflexivity | discriminate H].
Qed.

Lemma query_not_fixed (base q : string) :
  base = "/private" \/ base = "/private/" \/ base = "/health" ->
  base +:+ "?" +:+ q <> "/private" /\
  base +:+ "?" +:+ q <> "/private/" /\
  base +:+ "?" +:+ q <> "/health".
Proof.
  intros [->|[->| ->]]; repeat split; differ.
Qed.

Lemma escaping_not_fixed (p : string) :
  escapes_root p = true ->
  p <> "/private" /\ p <> "/private/" /\ p <> "/health".
Proof.
  intros H. repeat split; intros ->; vm_compute in H; discriminate H.
Qed.

(** C8.  The rules look at the raw request target.  On a request for
    "/private", "/private/" or "/health" followed by a query string,
    neither the pattern nor the comparison matches, and do_GET hands the
    request to the inherited static file handler. *)
Theorem query_string_bypasses_rules (fs : filesystem) (r : request)
    (base q : string) :
  base = "/private" \/ base = "/private/" \/ base = "/health" ->
  req_path r = base +:+ "?" +:+ q ->
  re.fullmatch private_re (req_path r) = false
  /\ String.eqb (req_path r) "/health" = false
  /\ DemoHandler_do_GET (DemoHandler_init r) = [ super_do_GET ]
  /\ DemoHandler_GET fs (DemoHandler_init r) =
     SimpleHTTPRequestHandler_do_GET fs (DemoHandler_init r)
  /\ (req_command r = "GET" ->
      handle_one_request DemoHandler fs r =
      SimpleHTTPRequestHandler_do_GET fs (DemoHandler_init r)).
Proof.
  intros Hb Hp.
  destruct (query_not_fixed base q Hb) as (H1 & H2 & H3).
  rewrite <- Hp in H1, H2, H3.
  split; [apply private_re_false; assumption|].
  split; [apply String.eqb_neq; assumption|].
  split; [apply do_GET_fallthrough; assumption|].
  split; [apply GET_fallthrough; assumption|].
  intros Hc. rewrite (handle_GET fs r Hc). apply GET_fallthrough; assumption.
Qed.

(** C2.  On a request for "/private/" followed by a non-empty suffix the
    403 rule does not match.  do_GET hands the request to the inherited
    static file handler, run on an instance whose directory is BASE_DIR
    and whose path is the request path: status 200 with the file's bytes
    when the path resolves to a file under that root, the library's 404
    when it resolves to nothing. *)
Theorem private_subpath_served_statically (fs : filesystem) (r : request)
    (s : string) :
  s <> "" ->
  req_path r = "/private/" +:+ s ->
  let t := DemoHandler_GET fs (DemoHandler_init r) in
  re.fullmatch private_re (req_path r) = false
  /\ DemoHandler_do_GET (DemoHandler_init r) = [ super_do_GET ]
  /\ t = SimpleHTTPRequestHandler_do_GET fs
           {| command := req_command r;
              path := "/private/" +:+ s;
              directory := BASE_DIR;
              client_address := req_client r |}
  /\ (forall f data,
        resolve BASE_DIR ("/private/" +:+ s) = Some f ->
        fs !! f = Some (File data) ->
        status_of t = Some 200 /\ body_of t = data)
  /\ (forall f,
        resolve BASE_DIR ("/private/" +:+ s) = Some f ->
        fs !! f = None ->
        status_of t = Some 404)
  /\ (req_command r = "GET" -> handle_one_request DemoHandler fs r = t).
Proof.
  intros Hs Hp. cbv zeta.
  destruct (subpath_not_fixed s Hs) as (H1 & H2 & H3).
  rewrite <- Hp in H1, H2, H3.
  rewrite (GET_fallthrough fs (DemoHandler_init r) H1 H2 H3).
  assert (Hself : DemoHandler_init r =
                  {| command := req_command r; path := "/private/" +:+ s;
                     directory := BASE_DIR; client_address := req_client r |}).
  { unfold DemoHandler_init, SimpleHTTPRequestHandler_init. rewrite Hp.
    reflexivity. }
  split; [apply private_re_false; assumption|].
  split; [apply do_GET_fallthrough; assumption|].
  split; [rewrite Hself; reflexivity|].
  split; [|split].
  - intros f data Hr Hf. rewrite Hself.
    eapply static_found; [exact Hr | exact Hf].
  - intros f Hr Hf. rewrite Hself.
    eapply static_absent; [exact Hr | exact Hf].
  - intros Hc. rewrite (handle_GET fs r Hc). apply GET_fallthrough; assumption.
Qed.

(** C3.  do_GET never opens a file outside BASE_DIR, and on a path that
    climbs out of the root (such as "/../../etc/passwd") it hands the
    request to the inherited static file handler, where it is rejected
    with 404 or 403 without any file being opened.  This is the answer to
    a GET request for such a path. *)
Theorem traversal_rejected_by_static_handler (fs : filesystem) (r : request) :
  let t := DemoHandler_GET fs (DemoHandler_init r) in
  (forall f, In f (opened t) -> is_under BASE_DIR f = true)
  /\ (escapes_root (req_path r) = true ->
      DemoHandler_do_GET (DemoHandler_init r) = [ super_do_GET ]
      /\ t = SimpleHTTPRequestHandler_do_GET fs (DemoHandler_init r)
      /\ rejected t)
  /\ (req_command r = "GET" -> handle_one_request DemoHandler fs r = t).
Proof.
  cbv zeta. split; [|split].
  - intros f Hin.
    destruct (decide (req_path r = "/private" \/ req_path r = "/private/")) as [Hp|Hp].
    { rewrite (GET_private fs (DemoHandler_init r) Hp) in Hin. destruct Hin. }
    destruct (decide (req_path r = "/health")) as [Hh|Hh].
    { rewrite (GET_health fs (DemoHandler_init r) Hh) in Hin. destruct Hin. }
    rewrite GET_fallthrough in Hin by (cbn [path DemoHandler_init SimpleHTTPRequestHandler_init]; tauto).
    apply static_opens_resolved in Hin.
    apply resolve_under_root in Hin. exact Hin.
  - intros He. destruct (escaping_not_fixed _ He) as (H1 & H2 & H3).
    split; [apply do_GET_fallthrough; assumption|].
    rewrite (GET_fallthrough fs (DemoHandler_init r) H1 H2 H3).
    split; [reflexivity|].
    pose proof (resolve_refuses_traversal BASE_DIR (req_path r) He) as Hnone.
    split.
    + apply static_refused. exact Hnone.
    + destruct (opened (SimpleHTTPRequestHandler_do_GET fs (DemoHandler_init r)))
        as [|f l] eqn:E; [reflexivity|].
      assert (Hin : In f (opened (SimpleHTTPRequestHandler_do_GET fs (DemoHandler_init r))))
        by (rewrite E; left; reflexivity).
      apply static_opens_resolved in Hin.
      cbn [directory path DemoHandler_init SimpleHTTPRequestHandler_init] in Hin.
      congruence.
  - intros Hc. apply handle_GET. exact Hc.
Qed.

(** ** One response per request *)

Lemma private_matcher_agrees (p : string) :
  String.eqb p "/private" || String.eqb p "/private/" = re.fullmatch private_re p.
Proof.
  destruct (re.fullmatch private_re p) eqn:E.
  - apply private_re_spec in E. destruct E as [-> | ->]; reflexivity.
  - apply orb_false_iff. split; apply String.eqb_neq; intros ->;
      vm_compute in E; discriminate E.
Qed.

Lemma GET_one_status_line (fs : filesystem) (self : handler) :
  (forall fs' self', status_lines (SimpleHTTPRequestHandler_do_GET fs' self') = 1%nat) ->
  status_lines (DemoHandler_GET fs self) = 1%nat.
Proof.
  intros Hlib.
  destruct (decide (path self = "/private" \/ path self = "/private/")) as [Hp|Hp].
  { rewrite (GET_private fs self Hp). reflexivity. }
  destruct (decide (path self = "/health")) as [Hh|Hh].
  { rewrite (GET_health fs self Hh). reflexivity. }
  rewrite GET_fallthrough by tauto. apply Hlib.
Qed.

(** C5.  Every request gets exactly one response.  do_GET is the
    first-match dispatch over the three route rules in their order (the
    403 rule, the health rule, the static fallback): exactly one producer
    runs, and with super().do_GET() resolved its calls are the whole
    answer of the GET method.  The two fixed producers write one status
    line each; so, as long as each request method of the library writes
    one status line per request, the answer to every request, of any
    command and path, carries exactly one status line. *)
Theorem exactly_one_rule_fires (fs : filesystem) (self : handler) (r : request) :
  spec_dispatch spec_route_rules (path self) = [ DemoHandler_do_GET self ]
  /\ responses (DemoHandler_do_GET self) = 1%nat
  /\ List.map (call_super (SimpleHTTPRequestHandler_do_GET fs self))
              (spec_dispatch spec_route_rules (path self))
     = [ DemoHandler_GET fs self ]
  /\ ((forall fs' self', status_lines (SimpleHTTPRequestHandler_do_GET fs' self') = 1%nat) ->
      status_lines (DemoHandler_GET fs self) = 1%nat)
  /\ ((forall fs' self', status_lines (SimpleHTTPRequestHandler_do_GET fs' self') = 1%nat) ->
      (forall name m fs' self',
         SimpleHTTPRequestHandler_other !! name = Some m ->
         status_lines (m fs' self') = 1%nat) ->
      status_lines (handle_one_request DemoHandler fs r) = 1%nat).
Proof.
  assert (Hd : spec_dispatch spec_route_rules (path self) = [ DemoHandler_do_GET self ]).
  { unfold DemoHandler_do_GET.
    cbn [spec_dispatch spec_route_rules matcher producer].
    rewrite private_matcher_agrees.
    destruct (re.fullmatch private_re (path self)); [reflexivity|].
    destruct (String.eqb (path self) "/health"); reflexivity. }
  split; [exact Hd|]. split.
  { unfold DemoHandler_do_GET.
    destruct (re.fullmatch private_re (path self)); [reflexivity|].
    destruct (String.eqb (path self) "/health"); reflexivity. }
  split; [rewrite Hd; reflexivity|].
  split; [apply GET_one_status_line|].
  intros Hlib Hother.
  destruct (decide (req_command r = "GET")) as [Hc|Hc].
  { rewrite (handle_GET fs r Hc). apply GET_one_status_line. exact Hlib. }
  assert (Hne : "do_GET" <> "do_" +:+ req_command r).
  { intros H. apply Hc. cbv [String.append] in H. congruence. }
  unfold handle_one_request. cbv zeta.
  change (command (cls_init DemoHandler r)) with (req_command r).
  cbn [cls_methods DemoHandler]. rewrite lookup_insert_ne by exact Hne.
  unfold SimpleHTTPRequestHandler_methods. rewrite lookup_insert_ne by exact Hne.
  match goal with
  | |- context [match ?o with Some _ => _ | None => _ end] =>
      destruct o as [m|] eqn:E
  end.
  - apply (Hother _ _ _ _ E).
  - reflexivity.
Qed.

(** ** No state across requests *)

Lemma serve_map (srv : server) (fs : filesystem) (rs : list request) :
  serve srv fs rs =
  (List.map (handle_one_request (RequestHandlerClass srv) fs) rs, (srv, fs)).
Proof.
  induction rs as [|r rs IH]; [reflexivity|].
  cbn [serve finish_request]. rewrite IH. reflexivity.
Qed.

Lemma do_GET_by_path (self1 self2 : handler) :
  path self1 = path self2 -> DemoHandler_do_GET self1 = DemoHandler_do_GET self2.
Proof. intros H. unfold DemoHandler_do_GET. rewrite H. reflexivity. Qed.

(** Two GET requests for the same path get the same status and body, from
    whichever clients they come, once the static answer of the library
    does not depend on the client. *)
Lemma GET_by_path (fs : filesystem) (r1 r2 : request) :
  (forall fs' s1 s2,
     command s1 = command s2 -> path s1 = path s2 -> directory s1 = directory s2 ->
     status_of (SimpleHTTPRequestHandler_do_GET fs' s1) =
     status_of (SimpleHTTPRequestHandler_do_GET fs' s2)
     /\ body_of (SimpleHTTPRequestHandler_do_GET fs' s1) =
        body_of (SimpleHTTPRequestHandler_do_GET fs' s2)) ->
  req_command r1 = "GET" -> req_command r2 = "GET" ->
  req_path r1 = req_path r2 ->
  status_of (handle_one_request DemoHandler fs r1) =
  status_of (handle_one_request DemoHandler fs r2)
  /\ body_of (handle_one_request DemoHandler fs r1) =
     body_of (handle_one_request DemoHandler fs r2).
Proof.
  intros Hlib Hc1 Hc2 Hp.
  rewrite (handle_GET fs r1 Hc1), (handle_GET fs r2 Hc2).
  destruct (decide (req_path r1 = "/private" \/ req_path r1 = "/private/")) as [H|H].
  { rewrite (GET_private fs (DemoHandler_init r1) H).
    rewrite Hp in H. rewrite (GET_private fs (DemoHandler_init r2) H).
    split; reflexivity. }
  destruct (decide (req_path r1 = "/health")) as [Hh|Hh].
  { rewrite (GET_health fs (DemoHandler_init r1) Hh).
    rewrite Hp in Hh. rewrite (GET_health fs (DemoHandler_init r2) Hh).
    split; reflexivity. }
  rewrite (GET_fallthrough fs (DemoHandler_init r1))
    by (cbn [path DemoHandler_init SimpleHTTPRequestHandler_init]; tauto).
  rewrite (GET_fallthrough fs (DemoHandler_init r2))
    by (cbn [path DemoHandler_init SimpleHTTPRequestHandler_init];
        rewrite <- Hp; tauto).
  apply Hlib; cbn [command path directory DemoHandler_init SimpleHTTPRequestHandler_init];
    congruence.
Qed.

Lemma pool_act_keeps (cls : handler_class) (fs : filesystem) (a : action) (p : pool) :
  pool_files p = fs -> Forall (conn_ok cls fs) (pool_conns p) ->
  pool_files (pool_act cls a p) = fs
  /\ Forall (conn_ok cls fs) (pool_conns (pool_act cls a p)).
Proof.
  intros Hf Hall. destruct a as [r|i]; cbn [pool_act].
  - cbn [pool_files pool_conns]. split; [exact Hf|].
    apply Forall_app. split; [exact Hall|].
    apply Forall_cons. split; [|apply Forall_nil_2].
    unfold conn_ok. cbn [conn_sent conn_pending conn_request]. rewrite Hf. reflexivity.
  - destruct (pool_conns p !! i) as [c|] eqn:Ec; [|split; assumption].
    destruct (conn_pending c) as [|x rest] eqn:Ep; [split; assumption|].
    cbn [pool_files pool_conns]. split; [exact Hf|].
    apply Forall_insert; [exact Hall|].
    pose proof (proj1 (Forall_lookup _ _) Hall i c Ec) as Hc.
    unfold conn_ok in *. cbn [conn_sent conn_pending conn_request].
    rewrite <- Hc, Ep, <- app_assoc. reflexivity.
Qed.

Lemma pool_run_keeps (cls : handler_class) (fs : filesystem) (sched : list action)
    (p : pool) :
  pool_files p = fs -> Forall (conn_ok cls fs) (pool_conns p) ->
  pool_files (pool_run cls sched p) = fs
  /\ Forall (conn_ok cls fs) (pool_conns (pool_run cls sched p)).
Proof.
  revert p. induction sched as [|a sched IH]; intros p Hf Hall; [split; assumption|].
  cbn [pool_run]. destruct (pool_act_keeps cls fs a p Hf Hall) as (Hf' & Hall').
  apply IH; assumption.
Qed.

(** C6.  The routing decision of do_GET is a function of the request path
    alone.  Under every schedule of the threaded server the files stay as
    they were, and what a handler has sent and has still to send is the
    answer its request gets on its own, whatever was accepted or sent
    before or in between.  So two finished GET requests for the same path
    carry the same status and the same body, whichever clients sent them
    and however the handlers were interleaved, given that the static
    answer of the library does not depend on the client. *)
Theorem routing_stateless :
  (forall self1 self2 : handler,
     path self1 = path self2 ->
     DemoHandler_do_GET self1 = DemoHandler_do_GET self2)
  /\ (forall (fs : filesystem) (sched : list action) (i : nat) (c : connection),
        pool_conns (pool_run DemoHandler sched {| pool_files := fs; pool_conns := [] |}) !! i
          = Some c ->
        pool_files (pool_run DemoHandler sched {| pool_files := fs; pool_conns := [] |}) = fs
        /\ (conn_sent c ++ conn_pending c)%list =
           handle_one_request DemoHandler fs (conn_request c))
  /\ ((forall fs' s1 s2,
         command s1 = command s2 -> path s1 = path s2 -> directory s1 = directory s2 ->
         status_of (SimpleHTTPRequestHandler_do_GET fs' s1) =
         status_of (SimpleHTTPRequestHandler_do_GET fs' s2)
         /\ body_of (SimpleHTTPRequestHandler_do_GET fs' s1) =
            body_of (SimpleHTTPRequestHandler_do_GET fs' s2)) ->
      forall (fs : filesystem) (sched : list action) (i j : nat) (c1 c2 : connection),
        pool_conns (pool_run DemoHandler sched {| pool_files := fs; pool_conns := [] |}) !! i
          = Some c1 ->
        pool_conns (pool_run DemoHandler sched {| pool_files := fs; pool_conns := [] |}) !! j
          = Some c2 ->
        conn_pending c1 = [] -> conn_pending c2 = [] ->
        req_command (conn_request c1) = "GET" ->
        req_command (conn_request c2) = "GET" ->
        req_path (conn_request c1) = req_path (conn_request c2) ->
        status_of (conn_sent c1) = status_of (conn_sent c2)
        /\ body_of (conn_sent c1) = body_of (conn_sent c2)).
Proof.
  assert (Hpool : forall fs sched i c,
    pool_conns (pool_run DemoHandler sched {| pool_files := fs; pool_conns := [] |}) !! i
      = Some c ->
    pool_files (pool_run DemoHandler sched {| pool_files := fs; pool_conns := [] |}) = fs
    /\ (conn_sent c ++ conn_pending c)%list =
       handle_one_request DemoHandler fs (conn_request c)).
  { intros fs sched i c Hc.
    destruct (pool_run_keeps DemoHandler fs sched
                {| pool_files := fs; pool_conns := [] |} eq_refl (Forall_nil_2 _))
      as (Hf & Hall).
    split; [exact Hf|]. exact (proj1 (Forall_lookup _ _) Hall i c Hc). }
  split; [exact do_GET_by_path|]. split; [exact Hpool|].
  intros Hlib fs sched i j c1 c2 H1 H2 Hp1 Hp2 Hc1 Hc2 Hpath.
  destruct (Hpool fs sched i c1 H1) as (_ & E1).
  destruct (Hpool fs sched j c2 H2) as (_ & E2).
  rewrite Hp1, app_nil_r in E1. rewrite Hp2, app_nil_r in E2.
  rewrite E1, E2. apply GET_by_path; assumption.
Qed.

(** ** Other request methods *)

(** C9.  Only do_GET is overridden.  A request with any other command is
    dispatched exactly as the base class SimpleHTTPRequestHandler, serving
    from BASE_DIR, dispatches it: the method the library defines for that
    command, or its 501 answer; the two fixed answers are not involved. *)
Theorem overrides_only_for_GET (fs : filesystem) (r : request) :
  req_command r <> "GET" ->
  cls_methods DemoHandler !! ("do_" +:+ req_command r) =
  cls_methods (SimpleHTTPRequestHandler BASE_DIR) !! ("do_" +:+ req_command r)
  /\ handle_one_request DemoHandler fs r =
     handle_one_request (SimpleHTTPRequestHandler BASE_DIR) fs r.
Proof.
  intros Hc.
  assert (Hne : "do_GET" <> "do_" +:+ req_command r).
  { intros H. apply Hc. cbv [String.append] in H. congruence. }
  assert (Hl : cls_methods DemoHandler !! ("do_" +:+ req_command r) =
               cls_methods (SimpleHTTPRequestHandler BASE_DIR) !! ("do_" +:+ req_command r)).
  { cbn [cls_methods DemoHandler SimpleHTTPRequestHandler].
    apply lookup_insert_ne. exact Hne. }
  split; [exact Hl|].
  unfold handle_one_request. cbv zeta.
  change (command (cls_init DemoHandler r)) with (req_command r).
  change (command (cls_init (SimpleHTTPRequestHandler BASE_DIR) r))
    with (req_command r).
  cbn [cls_methods DemoHandler SimpleHTTPRequestHandler].
  rewrite lookup_insert_ne by exact Hne. reflexivity.
Qed.

(** ** Start-up *)

Lemma get_lan_ip_effects (env : os_env) (x : effect) :
  In x (fst (get_lan_ip env)) -> x = socket_open \/ x = socket_close.
Proof.
  unfold get_lan_ip.
  destruct (socket_outcome env); [intros []|].
  destruct (close_outcome env); cbn; intuition.
Qed.

(** C10.  The served root is line 25's BASE_DIR, the "site" entry joined
    to the directory of the script.  Whatever --host and --port are, every
    handler instance the server makes has that directory; the flags fix
    the server address and nothing else, and every answer given during a
    run is the class's answer to an incoming request on an instance whose
    directory is BASE_DIR. *)
Theorem base_dir_fixed (c : cli) (env : os_env) (fs : filesystem) :
  BASE_DIR = os_path_join (os_path_dirname __file__) "site"
  /\ server_address (ThreadingHTTPServer (parse_args c) DemoHandler) =
     (default "0.0.0.0" (cli_host c), default 8000 (cli_port c))
  /\ (forall r : request,
        directory (cls_init (RequestHandlerClass
                     (ThreadingHTTPServer (parse_args c) DemoHandler)) r) = BASE_DIR)
  /\ (forall t : list call,
        In (respond t) (fst (main c env fs)) ->
        exists r : request,
          In r (incoming env)
          /\ directory (DemoHandler_init r) = BASE_DIR
          /\ t = handle_one_request DemoHandler fs r).
Proof.
  split; [reflexivity|]. split; [reflexivity|]. split; [reflexivity|].
  intros t. unfold main.
  destruct (parse_args c) as [host port]. unfold run.
  destruct (bind_outcome env host port); [intros []|].
  destruct (get_lan_ip env) as [eff detected] eqn:E.
  assert (Heff : forall x, In x eff -> x = socket_open \/ x = socket_close).
  { intros x Hx. apply (get_lan_ip_effects env). rewrite E. exact Hx. }
  assert (Hserved : forall lan_ip : string,
    In (respond t)
       (eff ++ [ print "DirBuster Demo Server running on:";
                 print ("  http://127.0.0.1:" +:+ pretty port);
                 print ("  http://" +:+ lan_ip +:+ ":" +:+ pretty port +:+ "  (LAN)");
                 print "Press Ctrl+C to stop." ]
            ++ List.map respond
                 (fst (serve (ThreadingHTTPServer (host, port) DemoHandler) fs (incoming env)))
            ++ [ server_close; print "Server stopped." ])%list ->
    exists r : request,
      In r (incoming env) /\ directory (DemoHandler_init r) = BASE_DIR
      /\ t = handle_one_request DemoHandler fs r).
  { intros lan_ip Hin. rewrite serve_map in Hin. cbn [fst] in Hin.
    apply in_app_or in Hin. destruct Hin as [Hin|Hin].
    { apply Heff in Hin. destruct Hin; discriminate. }
    apply in_app_or in Hin. destruct Hin as [Hin|Hin].
    { cbn in Hin. intuition discriminate. }
    apply in_app_or in Hin. destruct Hin as [Hin|Hin].
    2:{ cbn in Hin. intuition discriminate. }
    apply in_map_iff in Hin. destruct Hin as (t' & Ht & Hin). injection Ht as ->.
    apply in_map_iff in Hin. destruct Hin as (r & <- & Hr).
    exists r. repeat split; assumption. }
  destruct detected as [ip|e]; [apply Hserved|].
  destruct (isinstance_Exception e); [apply Hserved|].
  cbn [fst]. intros Hin. apply Heff in Hin. destruct Hin; discriminate.
Qed.

(** C7, amended.  When get_lan_ip raises an exception of class Exception
    (every error of the socket calls is one), run catches it: the banner
    is printed with the bind host in place of the detected address, the
    requests are served, and how run ends depends on the serve loop alone. *)
Theorem lan_ip_failure_falls_back (env : os_env) (fs : filesystem)
    (host : string) (port : Z) (e : exn) :
  bind_outcome env host port = None ->
  snd (get_lan_ip env) = Raise e ->
  isinstance_Exception e = true ->
  run env fs host port =
  ((fst (get_lan_ip env)
    ++ [ print "DirBuster Demo Server running on:";
         print ("  http://127.0.0.1:" +:+ pretty port);
         print ("  http://" +:+ host +:+ ":" +:+ pretty port +:+ "  (LAN)");
         print "Press Ctrl+C to stop." ]
    ++ List.map respond (List.map (handle_one_request DemoHandler fs) (incoming env))
    ++ [ server_close; print "Server stopped." ])%list,
   match serve_outcome env with
   | Some KeyboardInterrupt => None
   | other => other
   end).
Proof.
  intros Hb Hd He. unfold run. rewrite Hb.
  destruct (get_lan_ip env) as [eff detected]. cbn [fst snd] in *.
  subst detected. rewrite He. rewrite serve_map. reflexivity.
Qed.

(** * Further properties of the code *)

(** ** do_GET over all paths *)

(** X1.  do_GET calls the inherited handler exactly on the paths other
    than "/private", "/private/" and "/health"; its own status is 403
    exactly on the first two and 200 exactly on the third. *)
Theorem do_GET_classification (self : handler) :
  (delegates (DemoHandler_do_GET self) = true <->
     path self <> "/private" /\ path self <> "/private/" /\ path self <> "/health")
  /\ (status_of (DemoHandler_do_GET self) = Some 403 <->
        path self = "/private" \/ path self = "/private/")
  /\ (status_of (DemoHandler_do_GET self) = Some 200 <-> path self = "/health").
Proof.
  unfold DemoHandler_do_GET.
  destruct (re.fullmatch private_re (path self)) eqn:E.
  - apply private_re_spec in E. cbn. split; [|split].
    + split; [discriminate|]. intros (H1 & H2 & _). destruct E; contradiction.
    + split; [intros _; exact E | reflexivity].
    + split; [discriminate|]. intros H. destruct E as [E|E]; rewrite E in H; discriminate H.
  - assert (Hn : ~ (path self = "/private" \/ path self = "/private/")).
    { intros H. apply private_re_spec in H. congruence. }
    destruct (String.eqb_spec (path self) "/health") as [Hh|Hh]; cbn.
    + split; [|split].
      * split; [discriminate|]. intros (_ & _ & H). contradiction.
      * split; [discriminate|]. intros H. contradiction.
      * split; [intros _; exact Hh | reflexivity].
    + split; [|split].
      * split; [|reflexivity]. intros _. repeat split; try assumption; tauto.
      * split; [discriminate|]. intros H. contradiction.
      * split; [discriminate|]. intros H. contradiction.
Qed.

(** ** DemoHandler against its base class *)

Lemma handle_base_GET (fs : filesystem) (r : request) (dir : string) :
  req_command r = "GET" ->
  handle_one_request (SimpleHTTPRequestHandler dir) fs r =
  SimpleHTTPRequestHandler_do_GET fs (SimpleHTTPRequestHandler_init r dir).
Proof.
  intros H. unfold handle_one_request.
  cbn [cls_init cls_methods SimpleHTTPRequestHandler].
  cbn [command SimpleHTTPRequestHandler_init]. rewrite H.
  change ("do_" +:+ "GET") with "do_GET".
  unfold SimpleHTTPRequestHandler_methods.
  rewrite lookup_insert_eq. reflexivity.
Qed.

Lemma handle_other_command (fs : filesystem) (r : request) :
  req_command r <> "GET" ->
  handle_one_request DemoHandler fs r =
  handle_one_request (SimpleHTTPRequestHandler BASE_DIR) fs r.
Proof.
  intros Hc.
  assert (Hne : "do_GET" <> "do_" +:+ req_command r).
  { intros H. apply Hc. cbv [String.append] in H. congruence. }
  unfold handle_one_request. cbv zeta.
  change (command (cls_init DemoHandler r)) with (req_command r).
  change (command (cls_init (SimpleHTTPRequestHandler BASE_DIR) r))
    with (req_command r).
  cbn [cls_methods DemoHandler SimpleHTTPRequestHandler].
  rewrite lookup_insert_ne by exact Hne. reflexivity.
Qed.

(** X2.  DemoHandler and SimpleHTTPRequestHandler serving from BASE_DIR
    give the same answer to every request except a GET for "/private",
    "/private/" or "/health": nothing is added around the static answer,
    and no other command or path is treated differently. *)
Theorem differs_only_on_fixed_GET (fs : filesystem) (r : request) :
  ~ (req_command r = "GET" /\
     (req_path r = "/private" \/ req_path r = "/private/" \/ req_path r = "/health")) ->
  handle_one_request DemoHandler fs r =
  handle_one_request (SimpleHTTPRequestHandler BASE_DIR) fs r.
Proof.
  intros H.
  destruct (decide (req_command r = "GET")) as [Hc|Hc];
    [|apply handle_other_command; exact Hc].
  rewrite (handle_GET fs r Hc), (handle_base_GET fs r BASE_DIR Hc).
  apply GET_fallthrough;
    cbn [path DemoHandler_init SimpleHTTPRequestHandler_init]; intros Hp;
    apply H; tauto.
Qed.

(** ** get_lan_ip *)

(** X4.  get_lan_ip returns an address exactly when creating the socket,
    connect, getsockname and close all succeed, and then it is the address
    getsockname gave; an exception raised by close in the finally block
    replaces whatever the body returned or raised. *)
Theorem get_lan_ip_returns_iff (env : os_env) (ip : string) :
  (snd (get_lan_ip env) = Return ip <->
     socket_outcome env = None /\ connect_outcome env = None /\
     getsockname_outcome env = Return ip /\ close_outcome env = None)
  /\ (forall e : exn,
        socket_outcome env = None -> close_outcome env = Some e ->
        snd (get_lan_ip env) = Raise e).
Proof.
  unfold get_lan_ip. split.
  - destruct (socket_outcome env) as [e0|].
    { split; [discriminate | intros (H & _); discriminate H]. }
    destruct (close_outcome env) as [e1|].
    { split; [discriminate | intros (_ & _ & _ & H); discriminate H]. }
    destruct (connect_outcome env) as [e2|]; cbn [snd].
    { split; [discriminate | intros (_ & H & _); discriminate H]. }
    split; [intros H; repeat split; exact H | intros (_ & _ & H & _); exact H].
  - intros e Hs Hc. rewrite Hs, Hc. reflexivity.
Qed.

(** ** run *)

Lemma get_lan_ip_keeps_server (env : os_env) :
  ~ In server_close (fst (get_lan_ip env)).
Proof.
  unfold get_lan_ip. destruct (socket_outcome env); [intros []|].
  destruct (close_outcome env); cbn; intuition discriminate.
Qed.

(** The three ways run can go: the bind fails, the detection ends with an
    exception that is not caught, or the serve loop is reached. *)
Lemma run_cases (env : os_env) (fs : filesystem) (host : string) (port : Z) :
  (exists e, bind_outcome env host port = Some e
             /\ run env fs host port = ([], Some e))
  \/ (exists e, bind_outcome env host port = None
                /\ snd (get_lan_ip env) = Raise e
                /\ isinstance_Exception e = false
                /\ run env fs host port = (fst (get_lan_ip env), Some e))
  \/ (exists lan,
        bind_outcome env host port = None
        /\ (snd (get_lan_ip env) = Return lan
            \/ (lan = host /\ exists e, snd (get_lan_ip env) = Raise e
                                        /\ isinstance_Exception e = true))
        /\ run env fs host port =
           ((fst (get_lan_ip env)
             ++ [ print "DirBuster Demo Server running on:";
                  print ("  http://127.0.0.1:" +:+ pretty port);
                  print ("  http://" +:+ lan +:+ ":" +:+ pretty port +:+ "  (LAN)");
                  print "Press Ctrl+C to stop." ]
             ++ List.map respond (List.map (handle_one_request DemoHandler fs) (incoming env))
             ++ [ server_close; print "Server stopped." ])%list,
            match serve_outcome env with
            | Some KeyboardInterrupt => None
            | other => other
            end)).
Proof.
  unfold run. destruct (bind_outcome env host port) as [eb|].
  { left. exists eb. split; reflexivity. }
  right. destruct (get_lan_ip env) as [eff det]. cbn [fst snd].
  rewrite serve_map. cbn [fst].
  destruct det as [ip|e].
  { right. exists ip. repeat split. left. reflexivity. }
  destruct (isinstance_Exception e) eqn:He.
  - right. exists host. repeat split. right. split; [reflexivity|].
    exists e. split; [reflexivity | exact He].
  - left. exists e. repeat split. exact He.
Qed.

(** X5.  run returns normally exactly when the bind succeeds, the address
    detection does not end with an exception outside class Exception, and
    the serve loop ends by returning or by KeyboardInterrupt; in every
    other case run ends with an exception. *)
Theorem run_returns_normally_iff (env : os_env) (fs : filesystem)
    (host : string) (port : Z) :
  snd (run env fs host port) = None <->
  bind_outcome env host port = None
  /\ (forall e, snd (get_lan_ip env) = Raise e -> isinstance_Exception e = true)
  /\ (serve_outcome env = None \/ serve_outcome env = Some KeyboardInterrupt).
Proof.
  destruct (run_cases env fs host port)
    as [(e & Hb & Hr) | [(e & Hb & Hd & He & Hr) | (lan & Hb & Hd & Hr)]];
    rewrite Hr; cbn [snd].
  - split; [discriminate|]. intros (H & _). congruence.
  - split; [discriminate|]. intros (_ & H & _). specialize (H e Hd). congruence.
  - split.
    + intros Hs. split; [exact Hb|]. split.
      * intros e He. destruct Hd as [Hd | (_ & e' & Hd & He')]; congruence.
      * destruct (serve_outcome env) as [[]|]; try discriminate Hs; auto.
    + intros (_ & _ & [Hs|Hs]); rewrite Hs; reflexivity.
Qed.

(** X6.  The server is closed exactly when the serve loop was reached
    (the bind succeeded and the detection did not end with an uncaught
    exception), and then server_close followed by the line "Server
    stopped." are the last two things run does, also when the serve loop
    ends with an exception.  When the detection ends with an uncaught
    exception the bound server is left without server_close. *)
Theorem run_closes_server_iff (env : os_env) (fs : filesystem)
    (host : string) (port : Z) :
  (In server_close (fst (run env fs host port)) <->
     bind_outcome env host port = None
     /\ (forall e, snd (get_lan_ip env) = Raise e -> isinstance_Exception e = true))
  /\ (In server_close (fst (run env fs host port)) ->
      exists before,
        fst (run env fs host port) =
        (before ++ [ server_close; print "Server stopped." ])%list
        /\ ~ In server_close before).
Proof.
  pose proof (get_lan_ip_keeps_server env) as Hsil.
  destruct (run_cases env fs host port)
    as [(e & Hb & Hr) | [(e & Hb & Hd & He & Hr) | (lan & Hb & Hd & Hr)]];
    rewrite Hr; cbn [fst].
  - split; [|intros []]. split; [intros [] | intros (H & _); congruence].
  - split; [|intros H; contradiction].
    split; [intros H; contradiction|].
    intros (_ & H). specialize (H e Hd). congruence.
  - split.
    + split.
      * intros _. split; [exact Hb|].
        intros e He. destruct Hd as [Hd | (_ & e' & Hd & He')]; congruence.
      * intros _. rewrite !in_app_iff. right. right. right. left. reflexivity.
    + intros _. eexists. rewrite !app_assoc. split; [reflexivity|].
      rewrite !in_app_iff. intros [[H|H]|H].
      * contradiction.
      * cbn in H. intuition discriminate.
      * apply in_map_iff in H. destruct H as (t & H & _). discriminate H.
Qed.

End Program.

(** ** The reference static-file handler meets the contract *)

Lemma append_cons_assoc (a : string) (c : ascii) (b : string) :
  (a +:+ String c "") +:+ b = a +:+ String c b.
Proof.
  induction a as [|x a IH]; [reflexivity|].
  change (String x ((a +:+ String c "") +:+ b) = String x (a +:+ String c b)).
  rewrite IH. reflexivity.
Qed.

Lemma append_empty_r (a : string) : a +:+ "" = a.
Proof.
  induction a as [|x a IH]; [reflexivity|].
  change (String x (a +:+ "") = String x a).
  rewrite IH. reflexivity.
Qed.

Lemma escapes_root_slash (rel : string) :
  escapes_root (String "/"%char rel) = escapes_root rel.
Proof. reflexivity. Qed.

Lemma spec_resolve_Some (root p f : string) :
  spec_resolve root p = Some f ->
  exists rel, p = String "/"%char rel /\ escapes_root rel = false /\ f = root +:+ p.
Proof.
  unfold spec_resolve. destruct p as [|c rel]; [discriminate|].
  destruct (Ascii.eqb_spec c "/"%char) as [->|]; [|discriminate].
  destruct (escapes_root rel) eqn:E; [discriminate|].
  intros [= <-]. exists rel. repeat split. exact E.
Qed.

Lemma spec_resolve_under_root (root p f : string) :
  spec_resolve root p = Some f -> is_under root f = true.
Proof.
  intros H. apply spec_resolve_Some in H. destruct H as (rel & -> & He & ->).
  unfold is_under.
  assert (Hs : re.strip_prefix (root +:+ "/") (root +:+ String "/"%char rel) = Some rel).
  { apply re_strip_prefix_Some. symmetry. apply append_cons_assoc. }
  rewrite Hs, He. reflexivity.
Qed.

Lemma spec_resolve_refuses_traversal (root p : string) :
  escapes_root p = true -> spec_resolve root p = None.
Proof.
  intros H. unfold spec_resolve. destruct p as [|c rel]; [reflexivity|].
  destruct (Ascii.eqb_spec c "/"%char) as [->|]; [|reflexivity].
  rewrite escapes_root_slash in H. rewrite H. reflexivity.
Qed.

Lemma spec_static_found (fs : filesystem) (self : handler) (f data : string) :
  spec_resolve (directory self) (path self) = Some f ->
  fs !! f = Some (File data) ->
  status_of (spec_static fs self) = Some 200 /\ body_of (spec_static fs self) = data.
Proof.
  intros Hr Hf. unfold spec_static. rewrite Hr, Hf.
  split; [reflexivity|]. cbn [body_of]. apply append_empty_r.
Qed.

Lemma spec_static_absent (fs : filesystem) (self : handler) (f : string) :
  spec_resolve (directory self) (path self) = Some f ->
  fs !! f = None ->
  status_of (spec_static fs self) = Some 404.
Proof.
  intros Hr Hf. unfold spec_static. rewrite Hr, Hf. reflexivity.
Qed.

Lemma spec_static_opens_resolved (fs : filesystem) (self : handler) (f : string) :
  In f (opened (spec_static fs self)) ->
  spec_resolve (directory self) (path self) = Some f.
Proof.
  unfold spec_static.
  destruct (spec_resolve (directory self) (path self)) as [f0|]; [|intros []].
  destruct (fs !! f0) as [[data|]|]; cbn; intuition congruence.
Qed.

Lemma spec_static_refused (fs : filesystem) (self : handler) :
  spec_resolve (directory self) (path self) = None ->
  status_of (spec_static fs self) = Some 404 \/
  status_of (spec_static fs self) = Some 403.
Proof.
  intros Hr. unfold spec_static. rewrite Hr. left. reflexivity.
Qed.

Lemma spec_static_one_status_line (fs : filesystem) (self : handler) :
  status_lines (spec_static fs self) = 1%nat.
Proof.
  unfold spec_static.
  destruct (spec_resolve (directory self) (path self)) as [f|]; [|reflexivity].
  destruct (fs !! f) as [[data|]|]; reflexivity.
Qed.

Lemma example_other_one_status_line (name : string) (m : method)
    (fs : filesystem) (self : handler) :
  example_other !! name = Some m -> status_lines (m fs self) = 1%nat.
Proof.
  unfold example_other. intros H.
  apply lookup_insert_Some in H. destruct H as [(_ & <-) | (_ & H)].
  - unfold spec_static_head, spec_static.
    destruct (spec_resolve (directory self) (path self)) as [f|]; [|reflexivity].
    destruct (fs !! f) as [[data|]|]; reflexivity.
  - rewrite lookup_empty in H. discriminate H.
Qed.

Lemma spec_static_by_path (fs : filesystem) (s1 s2 : handler) :
  command s1 = command s2 -> path s1 = path s2 -> directory s1 = directory s2 ->
  status_of (spec_static fs s1) = status_of (spec_static fs s2)
  /\ body_of (spec_static fs s1) = body_of (spec_static fs s2).
Proof.
  intros _ Hp Hd. unfold spec_static. rewrite Hp, Hd. split; reflexivity.
Qed.

(** ** log_message *)

Lemma append_cons (x : ascii) (a b : string) :
  String x a +:+ b = String x (a +:+ b).
Proof. reflexivity. Qed.

Lemma append_prefix_inj (w a b : string) : w +:+ a = w +:+ b -> a = b.
Proof.
  induction w as [|x w IH]; [intros H; exact H|].
  rewrite !append_cons. intros [= H]. apply IH. exact H.
Qed.

(** Two texts that do not contain [c], each followed by [c] and a rest:
    the first [c] splits the whole in one way only. *)
Lemma append_char_inj (c : ascii) (a1 a2 r1 r2 : string) :
  has_char c a1 = false -> has_char c a2 = false ->
  a1 +:+ String c r1 = a2 +:+ String c r2 ->
  a1 = a2 /\ r1 = r2.
Proof.
  revert a2. induction a1 as [|x a1 IH]; intros [|y a2] H1 H2 H.
  - change (String c r1 = String c r2) in H. injection H as ->. split; reflexivity.
  - change (String c r1 = String y (a2 +:+ String c r2)) in H.
    injection H as -> _. cbn [has_char] in H2.
    rewrite Ascii.eqb_refl in H2. discriminate H2.
  - change (String x (a1 +:+ String c r1) = String c r2) in H.
    injection H as -> _. cbn [has_char] in H1.
    rewrite Ascii.eqb_refl in H1. discriminate H1.
  - rewrite !append_cons in H. injection H as -> H.
    cbn [has_char] in H1, H2.
    apply orb_false_iff in H1. apply orb_false_iff in H2.
    destruct (IH a2 (proj2 H1) (proj2 H2) H) as (-> & ->). split; reflexivity.
Qed.

(** X9.  A line written by log_message can be read back in one way only:
    when the client addresses contain no space and the time stamps no
    closing bracket, two calls that print the same line have the same
    client address, the same time stamp and the same formatted message. *)
Theorem log_line_unambiguous {pyval : Type}
    (str_mod : string -> list pyval -> option string)
    (self1 self2 : handler) (now1 now2 format1 format2 : string)
    (args1 args2 : list pyval) (line : string) :
  has_char " " (fst (client_address self1)) = false ->
  has_char " " (fst (client_address self2)) = false ->
  has_char "]" now1 = false ->
  has_char "]" now2 = false ->
  DemoHandler_log_message str_mod self1 now1 format1 args1 = Some (print line) ->
  DemoHandler_log_message str_mod self2 now2 format2 args2 = Some (print line) ->
  fst (client_address self1) = fst (client_address self2)
  /\ now1 = now2
  /\ str_mod format1 args1 = str_mod format2 args2.
Proof.
  intros Hip1 Hip2 Hn1 Hn2 H1 H2. unfold DemoHandler_log_message in *.
  destruct (str_mod format1 args1) as [m1|]; [|discriminate H1].
  destruct (str_mod format2 args2) as [m2|]; [|discriminate H2].
  injection H1 as H1. injection H2 as H2. rewrite <- H2 in H1. clear H2.
  change (fst (client_address self1) +:+ String " " ("- - [" +:+ now1 +:+ "] " +:+ m1)
          = fst (client_address self2) +:+ String " " ("- - [" +:+ now2 +:+ "] " +:+ m2))
    in H1.
  apply append_char_inj in H1; [|assumption|assumption].
  destruct H1 as (Hip & H1). apply append_prefix_inj in H1.
  change (now1 +:+ String "]" (" " +:+ m1) = now2 +:+ String "]" (" " +:+ m2)) in H1.
  apply append_char_inj in H1; [|assumption|assumption].
  destruct H1 as (Hnow & H1). apply append_prefix_inj in H1. subst m2.
  repeat split; assumption.
Qed.

(** ** Runs on the concrete installation *)

Lemma example_BASE_DIR :
  BASE_DIR example_file posix_dirname posix_join = "/srv/demo/site".
Proof. reflexivity. Qed.

Lemma private_listing_forbidden_witness :
  status_of (handle_one_request
               (DemoHandler example_file posix_dirname posix_join spec_static example_other)
               example_fs (example_request "GET" "/private/")) = Some 403
  /\ body_of (handle_one_request
               (DemoHandler example_file posix_dirname posix_join spec_static example_other)
               example_fs (example_request "GET" "/private/"))
     = "403 Forbidden: Directory listing is disabled.".
Proof.
  pose proof (private_listing_forbidden example_file posix_dirname posix_join
                spec_static example_other example_fs
                (example_request "GET" "/private/")
                (or_intror eq_refl)) as H.
  cbv zeta in H. destruct H as (_ & Hs & _ & Hb & _ & He).
  rewrite (He eq_refl). split; assumption.
Defined.

Lemma health_ok_witness :
  status_of (handle_one_request
               (DemoHandler example_file posix_dirname posix_join spec_static example_other)
               example_fs (example_request "GET" "/health")) = Some 200
  /\ body_of (handle_one_request
               (DemoHandler example_file posix_dirname posix_join spec_static example_other)
               example_fs (example_request "GET" "/health")) = "ok".
Proof.
  pose proof (health_ok example_file posix_dirname posix_join
                spec_static example_other example_fs
                (example_request "GET" "/health") eq_refl) as H.
  cbv zeta in H. destruct H as (_ & Hs & _ & Hb & _ & He).
  rewrite (He eq_refl). split; assumption.
Defined.

Lemma query_string_bypasses_rules_witness :
  handle_one_request
    (DemoHandler example_file posix_dirname posix_join spec_static example_other)
    example_fs (example_request "GET" "/private?x=1")
  = spec_static example_fs
      (DemoHandler_init example_file posix_dirname posix_join
         (example_request "GET" "/private?x=1")).
Proof.
  apply (query_string_bypasses_rules example_file posix_dirname posix_join
           spec_static example_other example_fs
           (example_request "GET" "/private?x=1") "/private" "x=1").
  - left. reflexivity.
  - reflexivity.
  - reflexivity.
Defined.

Lemma private_subpath_served_statically_witness :
  status_of (handle_one_request
               (DemoHandler example_file posix_dirname posix_join spec_static example_other)
               example_fs (example_request "GET" "/private/secrets.txt")) = Some 200
  /\ body_of (handle_one_request
               (DemoHandler example_file posix_dirname posix_join spec_static example_other)
               example_fs (example_request "GET" "/private/secrets.txt")) = "s3cr3t".
Proof.
  pose proof (private_subpath_served_statically example_file posix_dirname
                posix_join spec_static example_other spec_resolve
                spec_static_found spec_static_absent example_fs
                (example_request "GET" "/private/secrets.txt") "secrets.txt") as H.
  cbv zeta in H.
  destruct H as (_ & _ & _ & Hfound & _ & He); [discriminate | reflexivity |].
  rewrite (He eq_refl).
  apply (Hfound "/srv/demo/site/private/secrets.txt" "s3cr3t"); reflexivity.
Defined.

Lemma traversal_rejected_by_static_handler_witness :
  rejected (handle_one_request
              (DemoHandler example_file posix_dirname posix_join spec_static example_other)
              example_fs (example_request "GET" "/../../etc/passwd")).
Proof.
  pose proof (traversal_rejected_by_static_handler example_file posix_dirname
                posix_join spec_static example_other spec_resolve
                spec_static_opens_resolved spec_static_refused
                spec_resolve_under_root spec_resolve_refuses_traversal
                example_fs (example_request "GET" "/../../etc/passwd")) as H.
  cbv zeta in H. destruct H as (_ & Hrej & He).
  rewrite (He eq_refl). apply Hrej. reflexivity.
Defined.

Lemma routing_stateless_witness :
  match
    pool_conns (pool_run (DemoHandler example_file posix_dirname posix_join
                            spec_static example_other)
                  example_schedule
                  {| pool_files := example_fs; pool_conns := [] |}) !! 0%nat,
    pool_conns (pool_run (DemoHandler example_file posix_dirname posix_join
                            spec_static example_other)
                  example_schedule
                  {| pool_files := example_fs; pool_conns := [] |}) !! 2%nat
  with
  | Some c1, Some c2 =>
      status_of (conn_sent c1) = status_of (conn_sent c2)
      /\ body_of (conn_sent c1) = body_of (conn_sent c2)
  | _, _ => False
  end.
Proof.
  pose proof (routing_stateless example_file posix_dirname posix_join
                spec_static example_other) as (_ & _ & H).
  specialize (H spec_static_by_path example_fs example_schedule 0%nat 2%nat).
  destruct (pool_conns (pool_run (DemoHandler example_file posix_dirname posix_join
                                    spec_static example_other)
                          example_schedule
                          {| pool_files := example_fs; pool_conns := [] |}) !! 0%nat)
    as [c1|] eqn:E1; [|vm_compute in E1; discriminate E1].
  destruct (pool_conns (pool_run (DemoHandler example_file posix_dirname posix_join
                                    spec_static example_other)
                          example_schedule
                          {| pool_files := example_fs; pool_conns := [] |}) !! 2%nat)
    as [c2|] eqn:E2; [|vm_compute in E2; discriminate E2].
  apply (H c1 c2 eq_refl eq_refl);
    vm_compute in E1; vm_compute in E2;
    injection E1 as <-; injection E2 as <-; reflexivity.
Defined.

Lemma exactly_one_rule_fires_witness :
  status_lines (handle_one_request
                  (DemoHandler example_file posix_dirname posix_join
                     spec_static example_other)
                  example_fs (example_request "HEAD" "/index.html")) = 1%nat.
Proof.
  pose proof (exactly_one_rule_fires example_file posix_dirname posix_join
                spec_static example_other example_fs
                (DemoHandler_init example_file posix_dirname posix_join
                   (example_request "HEAD" "/index.html"))
                (example_request "HEAD" "/index.html")) as (_ & _ & _ & _ & H).
  apply H.
  - exact spec_static_one_status_line.
  - exact example_other_one_status_line.
Defined.

Lemma overrides_only_for_GET_witness :
  handle_one_request
    (DemoHandler example_file posix_dirname posix_join spec_static example_other)
    example_fs (example_request "HEAD" "/private")
  = handle_one_request
      (SimpleHTTPRequestHandler spec_static example_other "/srv/demo/site")
      example_fs (example_request "HEAD" "/private").
Proof.
  apply (overrides_only_for_GET example_file posix_dirname posix_join
           spec_static example_other example_fs (example_request "HEAD" "/private")).
  discriminate.
Defined.

Lemma base_dir_fixed_witness :
  exists r : request,
    In r (incoming example_env_no_network)
    /\ directory (DemoHandler_init example_file posix_dirname posix_join r)
       = "/srv/demo/site"
    /\ [ send_response 200;
         send_header "Content-Type" "text/plain; charset=utf-8";
         end_headers;
         wfile_write "ok" ]
       = handle_one_request
           (DemoHandler example_file posix_dirname posix_join spec_static example_other)
           example_fs r.
Proof.
  pose proof (base_dir_fixed example_file posix_dirname posix_join
                spec_static example_other
                {| cli_host := Some "127.0.0.1"; cli_port := Some 9000 |}
                example_env_no_network example_fs) as (_ & _ & _ & H).
  apply H. vm_compute. tauto.
Defined.

Lemma lan_ip_failure_falls_back_witness :
  run example_file posix_dirname posix_join spec_static example_other
      example_env_no_network example_fs "0.0.0.0" 8000
  = ([ socket_open; socket_close;
       print "DirBuster Demo Server running on:";
       print "  http://127.0.0.1:8000";
       print "  http://0.0.0.0:8000  (LAN)";
       print "Press Ctrl+C to stop.";
       respond [ send_response 200;
                 send_header "Content-Type" "text/plain; charset=utf-8";
                 end_headers;
                 wfile_write "ok" ];
       server_close;
       print "Server stopped." ],
     None).
Proof.
  rewrite (lan_ip_failure_falls_back example_file posix_dirname posix_join
             spec_static example_other example_env_no_network example_fs
             "0.0.0.0" 8000 (OSError 101) eq_refl eq_refl eq_refl).
  reflexivity.
Defined.

(** C7 as stated, for an exception that is not of class Exception: the
    socket is bound, get_lan_ip raises KeyboardInterrupt, and run ends with
    that exception before the banner is printed or a request is served. *)
Lemma lan_ip_interrupt_not_recovered :
  bind_outcome example_env_interrupted "0.0.0.0" 8000 = None
  /\ snd (get_lan_ip example_env_interrupted) = Raise KeyboardInterrupt
  /\ run example_file posix_dirname posix_join spec_static example_other
          example_env_interrupted example_fs "0.0.0.0" 8000
      = ([ socket_open; socket_close ], Some KeyboardInterrupt)
  /\ ~ In (print "  http://0.0.0.0:8000  (LAN)")
          (fst (run example_file posix_dirname posix_join spec_static example_other
                    example_env_interrupted example_fs "0.0.0.0" 8000)).
Proof.
  repeat split. cbn. intros [H|[H|[]]]; discriminate H.
Qed.

Lemma differs_only_on_fixed_GET_witness :
  handle_one_request
    (DemoHandler example_file posix_dirname posix_join spec_static example_other)
    example_fs (example_request "GET" "/index.html")
  = handle_one_request
      (SimpleHTTPRequestHandler spec_static example_other "/srv/demo/site")
      example_fs (example_request "GET" "/index.html").
Proof.
  apply (differs_only_on_fixed_GET example_file posix_dirname posix_join
           spec_static example_other example_fs
           (example_request "GET" "/index.html")).
  intros [_ [H|[H|H]]]; discriminate H.
Defined.

Lemma log_line_unambiguous_witness :
  "192.168.1.7" = "192.168.1.7"
  /\ "04/Nov/2026 09:41:00" = "04/Nov/2026 09:41:00"
  /\ example_str_mod "code 404, message File not found" []
     = example_str_mod "code 404, message File not found" [].
Proof.
  apply (log_line_unambiguous example_str_mod
           {| command := "GET"; path := "/missing"; directory := "/srv/demo/site";
              client_address := ("192.168.1.7", 51234) |}
           {| command := "GET"; path := "/missing"; directory := "/srv/demo/site";
              client_address := ("192.168.1.7", 40000) |}
           "04/Nov/2026 09:41:00" "04/Nov/2026 09:41:00"
           "code 404, message File not found" "code 404, message File not found"
           [] []
           "192.168.1.7 - - [04/Nov/2026 09:41:00] code 404, message File not found");
    reflexivity.
Defined.
